(** * A shallow embedding of [mongodb.go] (package [database])

    The package is a thin data-access layer over the MongoDB Go driver: six
    public operations ([GetALL], [GetByField], [Create], [Update], [Delete],
    [MatchAndLookup]) that each open a session with [createSession], run a
    closure under [mongo.WithSession] and hand back [(result, err)].

    The embedding keeps the control flow of the Go code: multiple return
    values are pairs, [panic] and [defer] are a small monad over a trace of
    driver calls, and the driver itself is a record of answers the package
    cannot influence. *)

From stdpp Require Import base gmap strings list.
From Stdlib Require Import Ascii ZArith Lia.

#[local] Set Warnings "-register-all".
#[local] Open Scope Z_scope.

(** ** Errors

    Go's [error] values that the package creates itself or receives from the
    libraries it calls. *)
Inductive error : Type :=
| ErrSyntax                       (* strconv.ErrSyntax, inside a NumError *)
| ErrRange                        (* strconv.ErrRange, inside a NumError *)
| ErrInvalidHex                   (* primitive.ErrInvalidHex *)
| errors_New (text : string)      (* errors.New(text) *)
| DriverError (code : nat).       (* an error answered by the mongo driver *)

(** ** [strconv.ParseInt(s, 10, 64)]

    The Go standard library's parser, base 10 and 64 bits as [GetALL] calls
    it. Unsigned 64-bit arithmetic is written out with its wrap-around. *)
Module strconv.

Definition uint64 (z : Z) : Z := z mod 2 ^ 64.
Definition int64 (z : Z) : Z := (z + 2 ^ 63) mod 2 ^ 64 - 2 ^ 63.

Definition maxUint64 : Z := 2 ^ 64 - 1.
(* the smallest number such that cutoff*10 > maxUint64 *)
Definition cutoff10 : Z := maxUint64 / 10 + 1.

(* '0' <= c && c <= '9' : d = c - '0' *)
Definition digit (c : ascii) : option Z :=
  let b := Z.of_N (N_of_ascii c) in
  if (48 <=? b) && (b <=? 57) then Some (b - 48) else None.

(* the loop of ParseUint over the bytes of s, n the number read so far *)
Fixpoint ParseUint_loop (s : string) (n : Z) : Z * option error :=
  match s with
  | EmptyString => (n, None)
  | String c s' =>
      match digit c with
      | None => (0, Some ErrSyntax)
      | Some d =>
          if cutoff10 <=? n then (maxUint64, Some ErrRange)
          else
            let n10 := uint64 (n * 10) in
            let n1 := uint64 (n10 + d) in
            if (n1 <? n10) || (maxUint64 <? n1) then (maxUint64, Some ErrRange)
            else ParseUint_loop s' n1
      end
  end.

Definition ParseUint (s : string) : Z * option error :=
  match s with
  | EmptyString => (0, Some ErrSyntax)
  | _ => ParseUint_loop s 0
  end.

Definition ParseInt (s : string) : Z * option error :=
  match s with
  | EmptyString => (0, Some ErrSyntax)
  | String c0 rest =>
      (* pick off the leading sign *)
      let '(neg, s1) :=
        if Ascii.eqb c0 "+"%char then (false, rest)
        else if Ascii.eqb c0 "-"%char then (true, rest)
        else (false, s) in
      let '(un, err) := ParseUint s1 in
      match err with
      | Some ErrRange | None =>
          let cutoff := 2 ^ 63 in
          if negb neg && (cutoff <=? un) then (int64 (cutoff - 1), Some ErrRange)
          else if neg && (cutoff <? un) then (int64 (- cutoff), Some ErrRange)
          else
            let n := int64 un in
            (if neg then int64 (- n) else n, None)
      | Some e => (0, Some e)
      end
  end.

End strconv.

(** ** [primitive.ObjectID] and [primitive.ObjectIDFromHex]

    An ObjectID is a [[12]byte]; bytes are numbers below 256. The decoder
    accepts exactly the strings of 24 hexadecimal digits and answers
    [NilObjectID] together with an error for every other string. *)
Module primitive.

Definition ObjectID : Type := list Z.

Definition NilObjectID : ObjectID := replicate 12 0.

(* encoding/hex: fromHexChar *)
Definition fromHexChar (c : ascii) : option Z :=
  let b := Z.of_N (N_of_ascii c) in
  if (48 <=? b) && (b <=? 57) then Some (b - 48)
  else if (97 <=? b) && (b <=? 102) then Some (b - 97 + 10)
  else if (65 <=? b) && (b <=? 70) then Some (b - 65 + 10)
  else None.

(* encoding/hex: DecodeString; None stands for its error *)
Fixpoint hex_DecodeString (s : string) : option (list Z) :=
  match s with
  | EmptyString => Some []
  | String _ EmptyString => None
  | String a (String b s') =>
      match fromHexChar a, fromHexChar b, hex_DecodeString s' with
      | Some x, Some y, Some bs => Some (Z.lor (Z.shiftl x 4) y :: bs)
      | _, _, _ => None
      end
  end.

Definition ObjectIDFromHex (s : string) : ObjectID * option error :=
  if negb (Nat.eqb (String.length s) 24) then (NilObjectID, Some ErrInvalidHex)
  else
    match hex_DecodeString s with
    | None => (NilObjectID, Some ErrInvalidHex)
    | Some b => (b, None)
    end.

End primitive.

(** ** Values

    What travels as [interface{}] or inside a BSON document: [bson.M] is a
    Go map (unordered, one value per key), [bson.D] an ordered list. *)
Inductive Value : Type :=
| VNil
| VString (s : string)
| VInt (n : Z)
| VObjectID (id : primitive.ObjectID)
| VM (m : gmap string Value)
| VStruct (n : nat).              (* any other value a caller passes *)

Module bson.
Definition M : Type := gmap string Value.
Definition D : Type := list (string * Value).
End bson.

Module options.

Record FindOptions : Type := { Limit : option Z; Sort : option bson.D }.

Definition Find : FindOptions := {| Limit := None; Sort := None |}.

Definition SetLimit (f : FindOptions) (i : Z) : FindOptions :=
  {| Limit := Some i; Sort := Sort f |}.

Definition SetSort (f : FindOptions) (sort : bson.D) : FindOptions :=
  {| Limit := Limit f; Sort := Some sort |}.

End options.

Module reflect.

(* reflect.Type: a caller's type, or the slice type made from one *)
Inductive Type_ : Type :=
| Named (name : string)
| SliceOf (t : Type_).

End reflect.

(* what a pointer made by reflect.New points to: the zero value, or what
   the driver decoded into it *)
Inductive Target : Type :=
| Zero
| Decoded (data : nat).

(* the [interface{}] an operation hands back *)
Inductive Result : Type :=
| RNil
| RNew (ty : reflect.Type_) (target : Target)   (* reflect.New(ty).Interface() *)
| RWrite (ack : nat).                           (* Insert/Update/DeleteResult *)

(** ** The driver

    [mongo.Client] as the package sees it: what each call answers. The
    driver answers a nil cursor together with every error of [Find] and
    [Aggregate], so those answers are a sum. *)
Module mongo.

Definition Session : Type := nat.
Definition Cursor : Type := nat.
Definition Document : Type := nat.

Inductive SingleResult : Type :=
| SingleResultErr (e : error)          (* SR.Err() != nil *)
| SingleResultDoc (d : Document).

Record Client : Type := {
  StartSession : error + Session;
  StartTransaction : Session -> option error;
  Find : string -> string -> bson.M -> options.FindOptions -> error + Cursor;
  FindOne : string -> string -> bson.M -> SingleResult;
  Aggregate : string -> string -> list bson.M -> error + Cursor;
  InsertOne : string -> string -> Value -> error + nat;
  UpdateOne : string -> string -> bson.M -> bson.M -> error + nat;
  DeleteOne : string -> string -> bson.M -> error + nat;
  All : Cursor -> reflect.Type_ -> Target * option error;
  Decode : Document -> reflect.Type_ -> Target * option error
}.

End mongo.

(** ** Go control flow: a trace of calls, [panic] and [defer] *)
Inductive Event : Type :=
| EvStartSession (r : error + mongo.Session)
| EvStartTransaction (s : mongo.Session) (r : option error)
| EvEndSession (s : mongo.Session)
| EvFind (db coll : string) (filter : bson.M) (opts : options.FindOptions)
| EvFindOne (db coll : string) (filter : bson.M)
| EvAggregate (db coll : string) (pipeline : list bson.M)
| EvInsertOne (db coll : string) (doc : Value)
| EvUpdateOne (db coll : string) (filter update : bson.M)
| EvDeleteOne (db coll : string) (filter : bson.M)
| EvAll (c : mongo.Cursor) (ty : reflect.Type_)
| EvClose (c : mongo.Cursor)
| EvDecode (d : mongo.Document) (ty : reflect.Type_)
| EvPrintf (format : string) (arg : Value)
| EvPrintln (text : string) (e : error).

Inductive panic : Type :=
| PanicError (e : error)          (* panic(err) *)
| PanicNilPointer.                (* runtime error: nil pointer dereference *)

Inductive Outcome (A : Type) : Type :=
| Returned (a : A)
| Panicked (p : panic).
Arguments Returned {A} a.
Arguments Panicked {A} p.

(* a computation: how it ends and the calls it made, oldest first *)
Definition Go (A : Type) : Type := Outcome A * list Event.

Definition ret {A} (a : A) : Go A := (Returned a, []).

Definition bind {A B} (c : Go A) (k : A -> Go B) : Go B :=
  match c with
  | (Returned a, t) => let '(r, t') := k a in (r, t ++ t')
  | (Panicked p, t) => (Panicked p, t)
  end.

Definition emit (e : Event) : Go unit := (Returned tt, [e]).

Definition panic_ {A} (p : panic) : Go A := (Panicked p, []).

(* [defer d] at the head of [body]: [d] runs when [body] ends, however it
   ends; a panic of [d] replaces the outcome *)
Definition defer {A} (d : Go unit) (body : Go A) : Go A :=
  let '(r, t) := body in
  let '(rd, td) := d in
  (match rd with Panicked p => Panicked p | Returned _ => r end, t ++ td).

Declare Scope go_scope.
Delimit Scope go_scope with go.
Notation "x <- c1 ;; c2" := (bind c1 (fun x => c2))
  (at level 100, c1 at next level, c2 at level 200, right associativity) : go_scope.
Notation "c1 ;;; c2" := (bind c1 (fun _ => c2))
  (at level 100, c2 at level 200, right associativity) : go_scope.
#[local] Open Scope go_scope.

Definition outcome {A} (c : Go A) : Outcome A := fst c.
Definition trace {A} (c : Go A) : list Event := snd c.

(* the body under [if err != nil { ... }] *)
Definition when_err (err : option error) (k : error -> Go unit) : Go unit :=
  match err with
  | Some e => k e
  | None => ret tt
  end.

(** ** The package *)
Record MongoClient : Type := { Client : mongo.Client }.

Section Package.

Variable m : MongoClient.

(* m.Client.StartSession() *)
Definition Client_StartSession : Go (error + mongo.Session) :=
  let r := mongo.StartSession (Client m) in
  emit (EvStartSession r) ;;; ret r.

(* session.StartTransaction() *)
Definition Session_StartTransaction (session : mongo.Session) : Go (option error) :=
  let r := mongo.StartTransaction (Client m) session in
  emit (EvStartTransaction session r) ;;; ret r.

(* session.EndSession(ctx) *)
Definition Session_EndSession (session : mongo.Session) : Go unit :=
  emit (EvEndSession session).

(* mongo.WithSession(ctx, sess, fn) calls fn with the session's context *)
Definition WithSession {A} (sess : mongo.Session) (fn : mongo.Session -> Go A) : Go A :=
  fn sess.

(* collection.Find(ctx, filter, findOptions): (cur, err) *)
Definition Collection_Find (db coll : string) (filter : bson.M)
    (opts : options.FindOptions) : Go (option mongo.Cursor * option error) :=
  emit (EvFind db coll filter opts) ;;;
  match mongo.Find (Client m) db coll filter opts with
  | inl e => ret (None, Some e)
  | inr c => ret (Some c, None)
  end.

(* collection.Aggregate(ctx, pipeline): (cur, err) *)
Definition Collection_Aggregate (db coll : string) (pipeline : list bson.M)
    : Go (option mongo.Cursor * option error) :=
  emit (EvAggregate db coll pipeline) ;;;
  match mongo.Aggregate (Client m) db coll pipeline with
  | inl e => ret (None, Some e)
  | inr c => ret (Some c, None)
  end.

(* cur.Close(ctx): the method reads a field of its receiver *)
Definition Cursor_Close (cur : option mongo.Cursor) : Go unit :=
  match cur with
  | None => panic_ PanicNilPointer
  | Some c => emit (EvClose c)
  end.

(* cur.All(ctx, results), results a pointer made by reflect.New(ty) *)
Definition Cursor_All (cur : option mongo.Cursor) (ty : reflect.Type_)
    : Go (Target * option error) :=
  match cur with
  | None => panic_ PanicNilPointer
  | Some c => emit (EvAll c ty) ;;; ret (mongo.All (Client m) c ty)
  end.

(* collection.FindOne(ctx, filter) *)
Definition Collection_FindOne (db coll : string) (filter : bson.M) : Go mongo.SingleResult :=
  emit (EvFindOne db coll filter) ;;; ret (mongo.FindOne (Client m) db coll filter).

(* SR.Err() *)
Definition SingleResult_Err (SR : mongo.SingleResult) : option error :=
  match SR with
  | mongo.SingleResultErr e => Some e
  | mongo.SingleResultDoc _ => None
  end.

(* SR.Decode(result), result a pointer made by reflect.New(ty) *)
Definition SingleResult_Decode (SR : mongo.SingleResult) (ty : reflect.Type_)
    : Go (Target * option error) :=
  match SR with
  | mongo.SingleResultErr e => ret (Zero, Some e)
  | mongo.SingleResultDoc d => emit (EvDecode d ty) ;;; ret (mongo.Decode (Client m) d ty)
  end.

(* collection.InsertOne / UpdateOne / DeleteOne: (result, err) *)
Definition write_result (r : error + nat) : Result * option error :=
  match r with
  | inl e => (RNil, Some e)
  | inr ack => (RWrite ack, None)
  end.

Definition Collection_InsertOne (db coll : string) (doc : Value) : Go (Result * option error) :=
  emit (EvInsertOne db coll doc) ;;; ret (write_result (mongo.InsertOne (Client m) db coll doc)).

Definition Collection_UpdateOne (db coll : string) (filter update : bson.M)
    : Go (Result * option error) :=
  emit (EvUpdateOne db coll filter update) ;;;
  ret (write_result (mongo.UpdateOne (Client m) db coll filter update)).

Definition Collection_DeleteOne (db coll : string) (filter : bson.M)
    : Go (Result * option error) :=
  emit (EvDeleteOne db coll filter) ;;;
  ret (write_result (mongo.DeleteOne (Client m) db coll filter)).

(* createSession return a new mongo session & transaction *)
Definition createSession : Go mongo.Session :=
  r <- Client_StartSession ;;
  match r with
  | inl err =>
      emit (EvPrintln "Error when try to start session: " err) ;;;
      panic_ (PanicError err)
  | inr session =>
      err <- Session_StartTransaction session ;;
      match err with
      | Some err =>
          emit (EvPrintln "Error when try to start transaction: " err) ;;;
          panic_ (PanicError err)
      | None => ret session
      end
  end.

(* how every operation ends: [if err = mongo.WithSession(...); err != nil] *)
Definition after_WithSession (method : string) (r : Result * option error)
    : Go (Result * option error) :=
  match snd r with
  | Some err =>
      emit (EvPrintln ("Error when try to use with session at " +:+ method +:+ " method: ") err) ;;;
      ret (RNil, Some err)
  | None => ret (fst r, None)
  end.

Definition GetALL (databaseName collectionName lastID pageSize : string)
    (dataModel : reflect.Type_) : Go (Result * option error) :=
  session <- createSession ;;
  defer (Session_EndSession session) (
    if String.eqb databaseName "" && String.eqb collectionName ""
       && String.eqb lastID "" && String.eqb pageSize ""
    then ret (RNil, Some (errors_New
           "databaseName, collectionName, lastID and pageSize must not empty"))
    else
      r <- WithSession session (fun sc =>
        filter <-
          (if negb (String.eqb lastID "") then
             let '(id, err) := primitive.ObjectIDFromHex lastID in
             when_err err (fun _ =>
               emit (EvPrintf "%d can not convert to ObjectID" (VObjectID id))) ;;;
             ret ({[ "_id" := VM {[ "$gt" := VObjectID id ]} ]} : bson.M)
           else ret (∅ : bson.M)) ;;
        (* Convert pageSize from string to int64 *)
        let '(limit, err) := strconv.ParseInt pageSize in
        when_err err (fun _ =>
          emit (EvPrintf "%d can not convert to int64" (VInt limit))) ;;;
        let findOptions := options.Find in
        let findOptions := options.SetLimit findOptions limit in
        let findOptions := options.SetSort findOptions [("_id", VInt 1)] in
        found <- Collection_Find databaseName collectionName filter findOptions ;;
        let '(cur, err) := found in
        defer (Cursor_Close cur) (
          match err with
          | Some err => ret (RNil, Some err)
          | None =>
              (* Decode cursor *)
              let dataModel := reflect.SliceOf dataModel in
              decoded <- Cursor_All cur dataModel ;;
              let '(target, err) := decoded in
              ret (RNew dataModel target, err)
          end)) ;;
      after_WithSession "GetALL" r).

Definition GetByField (databaseName collectionName field value : string)
    (dataModel : reflect.Type_) : Go (Result * option error) :=
  session <- createSession ;;
  defer (Session_EndSession session) (
    r <- WithSession session (fun sc =>
      filter <-
        (if String.eqb field "_id" then
           let '(id, err) := primitive.ObjectIDFromHex value in
           when_err err (fun _ =>
             emit (EvPrintf "%d can not convert to ObjectID" (VObjectID id))) ;;;
           ret ({[ field := VObjectID id ]} : bson.M)
         else ret ({[ field := VString value ]} : bson.M)) ;;
      SR <- Collection_FindOne databaseName collectionName filter ;;
      match SingleResult_Err SR with
      | Some err => ret (RNil, Some err)
      | None =>
          decoded <- SingleResult_Decode SR dataModel ;;
          let '(target, err) := decoded in
          let result := RNew dataModel target in
          match err with
          | None => ret (result, err)        (* if err == nil { return err } *)
          | Some _ => ret (result, None)     (* return nil *)
          end
      end) ;;
    after_WithSession "GetByField" r).

Definition Create (databaseName collectionName : string) (dataModel : Value)
    : Go (Result * option error) :=
  session <- createSession ;;
  defer (Session_EndSession session) (
    r <- WithSession session (fun sc =>
      Collection_InsertOne databaseName collectionName dataModel) ;;
    after_WithSession "Create" r).

Definition Update (databaseName collectionName : string) (ID dataModel : Value)
    : Go (Result * option error) :=
  session <- createSession ;;
  defer (Session_EndSession session) (
    r <- WithSession session (fun sc =>
      match ID with
      | VObjectID id =>
          let filter : bson.M := {[ "_id" := VObjectID id ]} in
          let update : bson.M := {[ "$set" := dataModel ]} in
          Collection_UpdateOne databaseName collectionName filter update
      | _ =>
          ret (RNil, Some (errors_New
            "can't convert userID type interface to primitive.ObjectID at DeleteUser function"))
      end) ;;
    after_WithSession "Update" r).

Definition Delete (databaseName collectionName : string) (ID : Value)
    : Go (Result * option error) :=
  session <- createSession ;;
  defer (Session_EndSession session) (
    r <- WithSession session (fun sc =>
      match ID with
      | VObjectID id =>
          let filter : bson.M := {[ "_id" := VObjectID id ]} in
          Collection_DeleteOne databaseName collectionName filter
      | _ =>
          ret (RNil, Some (errors_New
            "can't convert userID type interface to primitive.ObjectID at DeleteUser function"))
      end) ;;
    after_WithSession "Delete" r).

Definition MatchAndLookup (databaseName collectionForMatch fieldForMatch valueForMatch
    collectionForLookup fieldForLookup foreignField : string)
    (dataModel : reflect.Type_) : Go (Result * option error) :=
  session <- createSession ;;
  defer (Session_EndSession session) (
    r <- WithSession session (fun sc =>
      matchCondition <-
        (if String.eqb fieldForMatch "_id" then
           let '(id, err) := primitive.ObjectIDFromHex valueForMatch in
           when_err err (fun _ =>
             emit (EvPrintf "%d can not convert to ObjectID" (VObjectID id))) ;;;
           ret ({[ fieldForMatch := VObjectID id ]} : bson.M)
         else ret ({[ fieldForMatch := VString valueForMatch ]} : bson.M)) ;;
      let pipeline : list bson.M :=
        [ {[ "$match" := VM matchCondition ]};
          {[ "$lookup" := VM {[ "from" := VString collectionForLookup;
                                "localField" := VString fieldForLookup;
                                "foreignField" := VString foreignField;
                                "as" := VString collectionForLookup ]} ]} ] in
      found <- Collection_Aggregate databaseName collectionForMatch pipeline ;;
      let '(cur, err) := found in
      defer (Cursor_Close cur) (
        match err with
        | Some err => ret (RNil, Some err)
        | None =>
            (* Decode cursor *)
            let dataModel := reflect.SliceOf dataModel in
            decoded <- Cursor_All cur dataModel ;;
            let '(target, err) := decoded in
            ret (RNew dataModel target, err)
        end)) ;;
    after_WithSession "MatchAndLookup" r).

End Package.

(** ** Calls

    One call of a public operation with its arguments, so that a statement
    can range over every operation. *)
Inductive Call : Type :=
| CallGetALL (databaseName collectionName lastID pageSize : string) (dataModel : reflect.Type_)
| CallGetByField (databaseName collectionName field value : string) (dataModel : reflect.Type_)
| CallCreate (databaseName collectionName : string) (dataModel : Value)
| CallUpdate (databaseName collectionName : string) (ID dataModel : Value)
| CallDelete (databaseName collectionName : string) (ID : Value)
| CallMatchAndLookup (databaseName collectionForMatch fieldForMatch valueForMatch
    collectionForLookup fieldForLookup foreignField : string) (dataModel : reflect.Type_).

Definition run (m : MongoClient) (c : Call) : Go (Result * option error) :=
  match c with
  | CallGetALL db coll lastID pageSize ty => GetALL m db coll lastID pageSize ty
  | CallGetByField db coll field value ty => GetByField m db coll field value ty
  | CallCreate db coll doc => Create m db coll doc
  | CallUpdate db coll ID doc => Update m db coll ID doc
  | CallDelete db coll ID => Delete m db coll ID
  | CallMatchAndLookup db coll field value lookup localField foreignField ty =>
      MatchAndLookup m db coll field value lookup localField foreignField ty
  end.

(** ** Decimal numerals

    The number that a string of decimal digits writes, read after the
    digits already in [acc]; [None] when a character is not a digit. This
    is what [strconv.ParseInt] is compared with. *)
Fixpoint decimal (s : string) (acc : Z) : option Z :=
  match s with
  | EmptyString => Some acc
  | String c s' =>
      match strconv.digit c with
      | Some d => decimal s' (acc * 10 + d)
      | None => None
      end
  end.

(** ** Reading a trace *)

(* the calls that read or write documents *)
Definition is_query (e : Event) : bool :=
  match e with
  | EvFind _ _ _ _ | EvFindOne _ _ _ | EvAggregate _ _ _
  | EvInsertOne _ _ _ | EvUpdateOne _ _ _ _ | EvDeleteOne _ _ _ => true
  | _ => false
  end.

(* the calls that write documents *)
Definition is_mutation (e : Event) : bool :=
  match e with
  | EvInsertOne _ _ _ | EvUpdateOne _ _ _ _ | EvDeleteOne _ _ _ => true
  | _ => false
  end.

(* every call that reaches the driver; the rest is console output *)
Definition is_store_access (e : Event) : bool :=
  match e with
  | EvPrintf _ _ | EvPrintln _ _ => false
  | _ => true
  end.

Definition queries (t : list Event) : list Event := List.filter is_query t.
Definition mutations (t : list Event) : list Event := List.filter is_mutation t.
Definition store_accesses (t : list Event) : list Event := List.filter is_store_access t.

(* the sessions the driver handed out *)
Definition sessions_created (t : list Event) : list mongo.Session :=
  flat_map (fun e => match e with EvStartSession (inr s) => [s] | _ => [] end) t.

(* how many times [session.EndSession] ran on [s] *)
Definition releases (s : mongo.Session) (t : list Event) : nat :=
  length (List.filter
    (fun e => match e with EvEndSession s' => Nat.eqb s s' | _ => false end) t).

(* the session is open and its transaction started *)
Definition session_established (m : MongoClient) (s : mongo.Session) : Prop :=
  mongo.StartSession (Client m) = inr s /\ mongo.StartTransaction (Client m) s = None.

(* the error of the failed type assertion in Update and Delete *)
Definition TypeMismatch : error :=
  errors_New "can't convert userID type interface to primitive.ObjectID at DeleteUser function".

(* the error of GetALL's argument check *)
Definition ValidationError : error :=
  errors_New "databaseName, collectionName, lastID and pageSize must not empty".

(** ** Drivers to run the package against *)
Definition client (session : error + mongo.Session) (transaction : option error)
    (find : error + mongo.Cursor) (one : mongo.SingleResult)
    (decode : Target * option error) : MongoClient :=
  {| Client := {|
       mongo.StartSession := session;
       mongo.StartTransaction := fun _ => transaction;
       mongo.Find := fun _ _ _ _ => find;
       mongo.FindOne := fun _ _ _ => one;
       mongo.Aggregate := fun _ _ _ => find;
       mongo.InsertOne := fun _ _ _ => inr 1%nat;
       mongo.UpdateOne := fun _ _ _ _ => inr 1%nat;
       mongo.DeleteOne := fun _ _ _ => inr 1%nat;
       mongo.All := fun _ _ => decode;
       mongo.Decode := fun _ _ => decode |} |}.

(* every call succeeds: session 1, cursor 7, document 3 *)
Definition healthy : MongoClient :=
  client (inr 1%nat) None (inr 7%nat) (mongo.SingleResultDoc 3%nat) (Decoded 5, None).


(* the session opens, its transaction does not start *)
Definition no_transaction : MongoClient :=
  client (inr 1%nat) (Some (DriverError 2)) (inr 7%nat) (mongo.SingleResultDoc 3%nat)
    (Decoded 5, None).

(* Find and Aggregate answer an error *)
Definition query_fails : MongoClient :=
  client (inr 1%nat) None (inl (DriverError 3)) (mongo.SingleResultDoc 3%nat) (Decoded 5, None).

(* a document matches and does not decode into the target *)
Definition decode_fails : MongoClient :=
  client (inr 1%nat) None (inr 7%nat) (mongo.SingleResultDoc 3%nat) (Zero, Some (DriverError 4)).

(* no document matches: FindOne answers the driver's ErrNoDocuments *)
Definition no_document : MongoClient :=
  client (inr 1%nat) None (inr 7%nat) (mongo.SingleResultErr (DriverError 5))
    (Decoded 5, None).

(* a caller's record type *)
Definition User : reflect.Type_ := reflect.Named "User".


(* ID.(primitive.ObjectID) succeeds *)
Definition is_ObjectID (v : Value) : bool :=
  match v with
  | VObjectID _ => true
  | _ => false
  end.

(** ** Connecting

    [NewMongoDB] and [getConnectionURI], which run once at startup. *)

Module strings.

(* strings.Join(elems, sep) *)
Fixpoint Join (elems : list string) (sep : string) : string :=
  match elems with
  | [] => ""
  | [e] => e
  | e :: rest => e +:+ sep +:+ Join rest sep
  end.

End strings.

Module Config.

(** Modelled from the spec: the configuration struct [MongoDB] is declared
    in another file of the package. Its fields are the four that
    [getConnectionURI] reads: the hosts, the optional user and password,
    and the list of connection options. *)
Record MongoDB : Type := {
  User : string;
  Password : string;
  Hosts : list string;
  Options : list string
}.

End Config.

(* getConnectionURL return mongo connection URI *)
Definition getConnectionURI (config : Config.MongoDB) : string :=
  let host := strings.Join (Config.Hosts config) "," in
  let opt := strings.Join (Config.Options config) "?" in
  if String.eqb (Config.User config) "" && String.eqb (Config.Password config) "" then
    (* fmt.Sprintf("%v?%v", host, opt) *)
    host +:+ "?" +:+ opt
  else
    (* fmt.Sprintf("mongodb+srv://%v:%v@%v/%v", ...) *)
    "mongodb+srv://" +:+ Config.User config +:+ ":" +:+ Config.Password config
      +:+ "@" +:+ host +:+ "/" +:+ opt.

(* the server side of startup: what mongo.Connect answers for the client
   options made from a URI, and what client.Ping answers *)
Record Network : Type := {
  Connect : string -> error + mongo.Client;
  Ping : mongo.Client -> option error
}.

Inductive StartupEvent : Type :=
| EvConnect (uri : string)
| EvPing
| EvLogError (text : string) (e : error)
| EvLog (text : string).

(* NewMongoDB function return a new mongo client based on singleton pattern;
   the struct it returns holds the client and the configuration *)
Definition NewMongoDB (net : Network) (config : Config.MongoDB)
    : Outcome (MongoClient * Config.MongoDB) * list StartupEvent :=
  (* Setup client options *)
  let clientOptions := getConnectionURI config in
  (* Establish MongoDB connection *)
  match Connect net clientOptions with
  | inl err =>
      (Panicked (PanicError err),
       [EvConnect clientOptions;
        EvLogError "Error when try to connect to Mongodb server: " err])
  | inr client =>
      (* Check the connection status *)
      match Ping net client with
      | Some err =>
          (Panicked (PanicError err),
           [EvConnect clientOptions; EvPing;
            EvLogError "Can not ping to Mongodb server: " err])
      | None =>
          (Returned ({| Client := client |}, config),
           [EvConnect clientOptions; EvPing; EvLog "Connected to MongoDB Server"])
      end
  end.

(* startup cannot complete: no connection, or no answer to the ping *)
Definition startup_fails (net : Network) (config : Config.MongoDB) (e : error) : Prop :=
  Connect net (getConnectionURI config) = inl e \/
  exists client, Connect net (getConnectionURI config) = inr client /\
                 Ping net client = Some e.

(** ** More ways to read a trace *)

(* [s] occurs in [t] *)
Definition occurs_in (s t : string) : Prop :=
  exists before after, t = before +:+ s +:+ after.

(* [t] starts with [s] *)
Definition starts_with (s t : string) : Prop :=
  exists rest, t = s +:+ rest.

(* the calls on a session itself *)
Definition is_session_event (e : Event) : bool :=
  match e with
  | EvStartSession _ | EvStartTransaction _ _ | EvEndSession _ => true
  | _ => false
  end.


(* the calls that decode one document *)
Definition is_decode (e : Event) : bool :=
  match e with
  | EvDecode _ _ => true
  | _ => false
  end.

(* the database and collection a query is addressed to *)
Definition query_target (e : Event) : option (string * string) :=
  match e with
  | EvFind db coll _ _ | EvFindOne db coll _ | EvAggregate db coll _
  | EvInsertOne db coll _ | EvUpdateOne db coll _ _ | EvDeleteOne db coll _ => Some (db, coll)
  | _ => None
  end.

(* the database and collection a call names (for MatchAndLookup, the
   collection to match) *)
Definition call_target (c : Call) : string * string :=
  match c with
  | CallGetALL db coll _ _ _ | CallGetByField db coll _ _ _ | CallCreate db coll _
  | CallUpdate db coll _ _ | CallDelete db coll _
  | CallMatchAndLookup db coll _ _ _ _ _ _ => (db, coll)
  end.


(* the name an operation logs its errors under *)
Definition call_name (c : Call) : string :=
  match c with
  | CallGetALL _ _ _ _ _ => "GetALL"
  | CallGetByField _ _ _ _ _ => "GetByField"
  | CallCreate _ _ _ => "Create"
  | CallUpdate _ _ _ _ => "Update"
  | CallDelete _ _ _ => "Delete"
  | CallMatchAndLookup _ _ _ _ _ _ _ _ => "MatchAndLookup"
  end.



(* the equality filter GetByField builds (lines 140-154), and MatchAndLookup
   as its match condition (lines 264-274) *)
Definition field_filter (field value : string) : bson.M :=
  {[ field := if String.eqb field "_id"
              then VObjectID (fst (primitive.ObjectIDFromHex value))
              else VString value ]}.


(* a server that accepts every connection and answers every ping *)
Definition reachable : Network :=
  {| Connect := fun _ => inr (Client healthy); Ping := fun _ => None |}.

(* a server that refuses the connection *)
Definition unreachable : Network :=
  {| Connect := fun _ => inl (DriverError 6); Ping := fun _ => None |}.

(* a configuration with credentials, two hosts and two options *)
Definition cluster : Config.MongoDB :=
  {| Config.User := "app"; Config.Password := "secret";
     Config.Hosts := ["a.example.com"; "b.example.com"];
     Config.Options := ["retryWrites=true"; "w=majority"] |}.

(** * Properties *)

(** ** The library functions *)

Example ParseInt_10 : strconv.ParseInt "10" = (10, None).
Proof. reflexivity. Qed.

Example ParseInt_minus_5 : strconv.ParseInt "-5" = (-5, None).
Proof. reflexivity. Qed.

Example ParseInt_abc : strconv.ParseInt "abc" = (0, Some ErrSyntax).
Proof. reflexivity. Qed.

Example ParseInt_min : strconv.ParseInt "-9223372036854775808" = (- 2 ^ 63, None).
Proof. vm_compute. reflexivity. Qed.

Example ParseInt_too_big :
  strconv.ParseInt "9223372036854775808" = (2 ^ 63 - 1, Some ErrRange).
Proof. vm_compute. reflexivity. Qed.

Example ParseInt_huge :
  strconv.ParseInt "99999999999999999999x" = (2 ^ 63 - 1, Some ErrRange).
Proof. vm_compute. reflexivity. Qed.

Example ObjectIDFromHex_ok :
  primitive.ObjectIDFromHex "5f0c1a2b3c4d5e6f70819203"
  = ([95; 12; 26; 43; 60; 77; 94; 111; 112; 129; 146; 3], None).
Proof. vm_compute. reflexivity. Qed.

Example ObjectIDFromHex_bad :
  primitive.ObjectIDFromHex "not-an-id" = (primitive.NilObjectID, Some ErrInvalidHex).
Proof. vm_compute. reflexivity. Qed.

Lemma fromHexChar_range c x : primitive.fromHexChar c = Some x -> 0 <= x < 16.
Proof.
  unfold primitive.fromHexChar.
  repeat case_match; intros [= <-]; lia.
Qed.

(* two digits make one byte *)
Lemma hex_byte_range x y : 0 <= x < 16 -> 0 <= y < 16 -> 0 <= Z.lor (Z.shiftl x 4) y < 256.
Proof.
  intros Hx Hy.
  assert (Hb : Z.lor (Z.shiftl x 4) y < 2 ^ 8).
  { destruct (Z.eq_dec (Z.lor (Z.shiftl x 4) y) 0) as [->|Hne]; [lia|].
    apply Z.log2_lt_pow2.
    - pose proof (Z.lor_nonneg (Z.shiftl x 4) y) as H.
      pose proof (Z.shiftl_nonneg x 4). lia.
    - rewrite Z.log2_lor by (try apply Z.shiftl_nonneg; lia).
      apply Z.max_lub_lt.
      + destruct (Z.eq_dec x 0) as [->|]; [vm_compute; reflexivity|].
        rewrite Z.log2_shiftl by lia.
        assert (Z.log2 x < 4) by (apply Z.log2_lt_pow2; lia). lia.
      + destruct (Z.eq_dec y 0) as [->|]; [vm_compute; reflexivity|].
        assert (Z.log2 y < 4) by (apply Z.log2_lt_pow2; lia). lia. }
  split; [|lia].
  apply Z.lor_nonneg. split; [apply Z.shiftl_nonneg|]; lia.
Qed.

(* the decoder reads the string two characters at a time *)
Lemma hex_DecodeString_spec s :
  (forall b, primitive.hex_DecodeString s = Some b ->
     String.length s = (2 * length b)%nat /\ Forall (fun x => 0 <= x < 256) b) /\
  (forall c b, primitive.hex_DecodeString (String c s) = Some b ->
     S (String.length s) = (2 * length b)%nat /\ Forall (fun x => 0 <= x < 256) b).
Proof.
  induction s as [|a s [IH1 IH2]].
  - split; [intros b [= <-]; by split|]. intros c b. discriminate.
  - split; [apply IH2|].
    intros c b. cbn [primitive.hex_DecodeString].
    destruct (primitive.fromHexChar c) as [x|] eqn:Hx; [|discriminate].
    destruct (primitive.fromHexChar a) as [y|] eqn:Hy; [|discriminate].
    destruct (primitive.hex_DecodeString s) as [bs|] eqn:Hbs; [|discriminate].
    intros [= <-]. destruct (IH1 bs eq_refl) as [Hlen Hall].
    split; [cbn [String.length length]; lia|].
    constructor; [|done].
    apply hex_byte_range; eapply fromHexChar_range; eassumption.
Qed.

(** An identifier that [ObjectIDFromHex] accepts is 12 bytes. *)
Lemma ObjectIDFromHex_accepts s id :
  primitive.ObjectIDFromHex s = (id, None) ->
  String.length s = 24%nat /\ length id = 12%nat /\ Forall (fun x => 0 <= x < 256) id.
Proof.
  unfold primitive.ObjectIDFromHex.
  destruct (Nat.eqb_spec (String.length s) 24) as [Hlen|]; [|discriminate].
  cbn [negb].
  destruct (primitive.hex_DecodeString s) as [b|] eqn:Hb; [|discriminate].
  intros [= <-]. destruct (proj1 (hex_DecodeString_spec s) b Hb) as [Hl Hall].
  repeat split; [done|lia|done].
Qed.

Lemma digit_range c d : strconv.digit c = Some d -> 0 <= d <= 9.
Proof. unfold strconv.digit. case_match; [|discriminate]. intros [= <-]. lia. Qed.

Lemma decimal_ge s acc v : 0 <= acc -> decimal s acc = Some v -> acc <= v.
Proof.
  revert acc. induction s as [|c s IH]; intros acc Hacc; cbn [decimal].
  - intros [= <-]. lia.
  - destruct (strconv.digit c) as [d|] eqn:Hd; [|discriminate].
    apply digit_range in Hd. intros H. apply IH in H; lia.
Qed.

Lemma ParseUint_loop_decimal s n v :
  0 <= n -> decimal s n = Some v -> v <= strconv.maxUint64 ->
  strconv.ParseUint_loop s n = (v, None).
Proof.
  revert n. induction s as [|c s IH]; intros n Hn; cbn [decimal strconv.ParseUint_loop].
  - by intros [= <-].
  - destruct (strconv.digit c) as [d|] eqn:Hd; [|discriminate].
    intros Hv Hmax. pose proof (digit_range _ _ Hd) as Hdr.
    assert (Hpos : 0 <= n * 10 + d) by lia.
    pose proof (decimal_ge _ _ _ Hpos Hv) as Hge.
    change strconv.cutoff10 with 1844674407370955162.
    unfold strconv.maxUint64, strconv.uint64 in *.
    destruct (Z.leb_spec 1844674407370955162 n); [lia|].
    cbv zeta.
    rewrite (Z.mod_small (n * 10)) by lia.
    rewrite (Z.mod_small (n * 10 + d)) by lia.
    destruct (Z.ltb_spec (n * 10 + d) (n * 10)); [lia|].
    destruct (Z.ltb_spec (2 ^ 64 - 1) (n * 10 + d)); [lia|].
    cbn [orb]. apply IH; [lia|done|lia].
Qed.

(** On a string of digits that writes a number below 2^63, [ParseInt]
    answers that number and no error. *)
Lemma ParseInt_decimal s v :
  s <> "" -> decimal s 0 = Some v -> v < 2 ^ 63 ->
  strconv.ParseInt s = (v, None).
Proof.
  intros Hne Hv Hlt. destruct s as [|c0 rest]; [done|].
  pose proof (decimal_ge _ 0 _ (Z.le_refl 0) Hv) as Hge.
  unfold strconv.ParseInt.
  assert (Hsign : Ascii.eqb c0 "+" = false /\ Ascii.eqb c0 "-" = false).
  { cbn [decimal] in Hv. destruct (strconv.digit c0) as [d|] eqn:Hd; [|discriminate].
    unfold strconv.digit in Hd.
    split; apply Ascii.eqb_neq; intros ->; vm_compute in Hd; discriminate. }
  destruct Hsign as [-> ->].
  unfold strconv.ParseUint.
  rewrite (ParseUint_loop_decimal _ 0 v) by (unfold strconv.maxUint64; lia || done).
  cbv zeta. cbn [negb andb].
  destruct (Z.leb_spec (2 ^ 63) v); [lia|].
  unfold strconv.int64. rewrite Z.mod_small by lia. f_equal. lia.
Qed.





(** ** [createSession] *)

Lemma createSession_established m s :
  session_established m s ->
  createSession m = (Returned s, [EvStartSession (inr s); EvStartTransaction s None]).
Proof.
  intros [Hs Ht]. unfold createSession, Client_StartSession, Session_StartTransaction.
  rewrite Hs. cbn. rewrite Ht. reflexivity.
Qed.


Lemma createSession_no_transaction m s e :
  mongo.StartSession (Client m) = inr s ->
  mongo.StartTransaction (Client m) s = Some e ->
  createSession m =
    (Panicked (PanicError e),
     [EvStartSession (inr s); EvStartTransaction s (Some e);
      EvPrintln "Error when try to start transaction: " e]).
Proof.
  intros Hs Ht. unfold createSession, Client_StartSession, Session_StartTransaction.
  rewrite Hs. cbn. rewrite Ht. reflexivity.
Qed.

(* an operation is [createSession] and then the rest: when [createSession]
   panics, the operation is that panic *)
Lemma run_createSession_panics m c p t :
  createSession m = (Panicked p, t) -> run m c = (Panicked p, t).
Proof.
  intros H.
  destruct c; cbn [run];
    unfold GetALL, GetByField, Create, Update, Delete, MatchAndLookup;
    rewrite H; reflexivity.
Qed.

(** ** Proof steps *)

(* unfold the control flow, leave the BSON maps as they are written *)
Ltac go_simpl := cbn -[singletonM empty insert] in *.

(* split on the next answer of the driver that the goal waits for *)
Ltac case_answer :=
  match goal with
  | |- context [mongo.Find ?c ?db ?coll ?f ?o] => destruct (mongo.Find c db coll f o) eqn:?
  | |- context [mongo.Aggregate ?c ?db ?coll ?p] => destruct (mongo.Aggregate c db coll p) eqn:?
  | |- context [mongo.FindOne ?c ?db ?coll ?f] => destruct (mongo.FindOne c db coll f) eqn:?
  | |- context [mongo.All ?c ?cur ?ty] => destruct (mongo.All c cur ty) as [? [?|]] eqn:?
  | |- context [mongo.Decode ?c ?d ?ty] => destruct (mongo.Decode c d ty) as [? [?|]] eqn:?
  | |- context [mongo.InsertOne ?c ?db ?coll ?d] => destruct (mongo.InsertOne c db coll d) eqn:?
  | |- context [mongo.UpdateOne ?c ?db ?coll ?f ?u] =>
      destruct (mongo.UpdateOne c db coll f u) eqn:?
  | |- context [mongo.DeleteOne ?c ?db ?coll ?f] => destruct (mongo.DeleteOne c db coll f) eqn:?
  end.

(** ** [GetALL] *)

(* the argument check of GetALL passes as soon as one argument is not empty *)
Lemma not_all_empty db coll lastID pageSize :
  (db, coll, lastID, pageSize) <> ("", "", "", "") ->
  String.eqb db "" && String.eqb coll "" && String.eqb lastID "" && String.eqb pageSize ""
  = false.
Proof.
  intros Hne.
  destruct (String.eqb_spec db ""), (String.eqb_spec coll ""),
    (String.eqb_spec lastID ""), (String.eqb_spec pageSize ""); subst; try reflexivity.
  by destruct Hne.
Qed.

(* the one query of GetALL, shared by the statements below *)
Lemma GetALL_query_of_session m db coll lastID pageSize ty s :
  session_established m s ->
  (db, coll, lastID, pageSize) <> ("", "", "", "") ->
  queries (trace (GetALL m db coll lastID pageSize ty)) =
    [EvFind db coll
       (if String.eqb lastID "" then ∅
        else {[ "_id" := VM {[ "$gt" := VObjectID (fst (primitive.ObjectIDFromHex lastID)) ]} ]})
       {| options.Limit := Some (fst (strconv.ParseInt pageSize));
          options.Sort := Some [("_id", VInt 1)] |}].
Proof.
  intros Hs Hne. unfold GetALL.
  rewrite (createSession_established _ _ Hs), (not_all_empty _ _ _ _ Hne).
  unfold WithSession, Collection_Find, Cursor_All, after_WithSession.
  destruct (strconv.ParseInt pageSize) as [limit perr].
  destruct (primitive.ObjectIDFromHex lastID) as [id ierr].
  destruct (String.eqb lastID ""), perr, ierr; go_simpl;
    case_answer; go_simpl; try reflexivity;
    case_answer; reflexivity.
Qed.

(** X20. The first page: with an empty lastID and a page size written as a
    decimal numeral of a number below 2^63, the one query of GetALL is a
    Find with an empty filter, ascending on [_id], limited to that
    number. *)
Lemma GetALL_first_page m db coll pageSize ty s n :
  session_established m s ->
  pageSize <> "" -> decimal pageSize 0 = Some n -> n < 2 ^ 63 ->
  queries (trace (GetALL m db coll "" pageSize ty)) =
    [EvFind db coll ∅
       {| options.Limit := Some n; options.Sort := Some [("_id", VInt 1)] |}].
Proof.
  intros Hs Hne Hn Hlt.
  rewrite (GetALL_query_of_session m db coll "" pageSize ty s Hs) by congruence.
  rewrite (ParseInt_decimal _ _ Hne Hn Hlt). reflexivity.
Qed.

(* a later page: identifiers strictly above the one lastID decodes to *)
Lemma GetALL_next_page m db coll lastID pageSize ty s id n :
  session_established m s ->
  primitive.ObjectIDFromHex lastID = (id, None) ->
  strconv.ParseInt pageSize = (n, None) ->
  queries (trace (GetALL m db coll lastID pageSize ty)) =
    [EvFind db coll {[ "_id" := VM {[ "$gt" := VObjectID id ]} ]}
       {| options.Limit := Some n; options.Sort := Some [("_id", VInt 1)] |}].
Proof.
  intros Hs Hid Hn.
  assert (Hne : lastID <> "") by (intros ->; discriminate Hid).
  rewrite (GetALL_query_of_session m db coll lastID pageSize ty s Hs) by congruence.
  rewrite Hid, Hn. destruct (String.eqb_spec lastID ""); [done|reflexivity].
Qed.

(** C5. Once its session is established and its arguments pass the check,
    GetALL issues exactly one query, a Find on the named collection: the
    filter is empty when lastID is the empty string and is
    [{_id: {$gt: id}}] with [id] the identifier decoded from lastID
    otherwise; the sort is ascending on [_id] and the limit is the number
    [strconv.ParseInt] read from pageSize. *)
Theorem GetALL_query m db coll lastID pageSize ty s :
  session_established m s ->
  (db, coll, lastID, pageSize) <> ("", "", "", "") ->
  queries (trace (GetALL m db coll lastID pageSize ty)) =
    [EvFind db coll
       (if String.eqb lastID "" then ∅
        else {[ "_id" := VM {[ "$gt" := VObjectID (fst (primitive.ObjectIDFromHex lastID)) ]} ]})
       {| options.Limit := Some (fst (strconv.ParseInt pageSize));
          options.Sort := Some [("_id", VInt 1)] |}].
Proof.
  intros Hs Hne. unfold GetALL.
  rewrite (createSession_established _ _ Hs), (not_all_empty _ _ _ _ Hne).
  unfold WithSession, Collection_Find, Cursor_All, after_WithSession.
  destruct (strconv.ParseInt pageSize) as [limit perr].
  destruct (primitive.ObjectIDFromHex lastID) as [id ierr].
  (* which filter, whether a line is printed for pageSize and for lastID *)
  destruct (String.eqb lastID ""), perr, ierr; go_simpl;
    (* the answer of Find: an error ends the closure here *)
    case_answer; go_simpl; try reflexivity;
    (* the answer of cur.All *)
    case_answer; reflexivity.
Qed.

Lemma GetALL_query_witness :
  session_established healthy 1%nat /\
  queries (trace (GetALL healthy "db" "users" "5f0c1a2b3c4d5e6f70819203" "10" User)) =
    [EvFind "db" "users"
       {[ "_id" := VM {[ "$gt" :=
            VObjectID [95; 12; 26; 43; 60; 77; 94; 111; 112; 129; 146; 3] ]} ]}
       {| options.Limit := Some 10; options.Sort := Some [("_id", VInt 1)] |}].
Proof.
  split; [split; reflexivity|].
  apply (GetALL_query healthy "db" "users" "5f0c1a2b3c4d5e6f70819203" "10" User 1%nat);
    [split; reflexivity | discriminate].
Defined.

(** C7, as the code has it. With all four arguments empty, GetALL first
    opens a session and starts a transaction; once they are established it
    hands back the validation error without any query and ends the
    session. *)
Theorem GetALL_all_empty m ty s :
  session_established m s ->
  GetALL m "" "" "" "" ty =
    (Returned (RNil, Some ValidationError),
     [EvStartSession (inr s); EvStartTransaction s None; EvEndSession s]).
Proof.
  intros Hs. unfold GetALL. rewrite (createSession_established _ _ Hs). reflexivity.
Qed.

Lemma GetALL_all_empty_witness :
  session_established healthy 1%nat /\
  GetALL healthy "" "" "" "" User =
    (Returned (RNil, Some ValidationError),
     [EvStartSession (inr 1%nat); EvStartTransaction 1%nat None; EvEndSession 1%nat]).
Proof.
  split; [split; reflexivity|].
  apply (GetALL_all_empty healthy User 1%nat). split; reflexivity.
Defined.

(** C7, against the claim. The rejected call has reached the driver three
    times by the time it returns: a session was opened, a transaction
    started, the session ended. *)
Lemma GetALL_all_empty_opens_session :
  outcome (GetALL healthy "" "" "" "" User) = Returned (RNil, Some ValidationError) /\
  store_accesses (trace (GetALL healthy "" "" "" "" User)) =
    [EvStartSession (inr 1%nat); EvStartTransaction 1%nat None; EvEndSession 1%nat] /\
  sessions_created (trace (GetALL healthy "" "" "" "" User)) = [1%nat].
Proof. vm_compute. auto. Qed.




(** ** [createSession] under every operation *)




(** C1, where the code departs from the claim. With a driver that opens
    the session and cannot start its transaction, every operation panics
    inside [createSession], before its [defer session.EndSession] is
    reached: the session was created and is never released. *)
Theorem session_not_released_when_transaction_fails (c : Call) :
  sessions_created (trace (run no_transaction c)) = [1%nat] /\
  releases 1%nat (trace (run no_transaction c)) = 0%nat /\
  outcome (run no_transaction c) = Panicked (PanicError (DriverError 2)).
Proof.
  rewrite (run_createSession_panics no_transaction c _ _
             (createSession_no_transaction no_transaction 1%nat (DriverError 2)
                eq_refl eq_refl)).
  repeat split.
Qed.

(** Once [createSession] has returned, the session is released exactly once
    on every path of every operation, a panic of the closure included, and
    the release is the last thing the operation does. *)
Lemma session_released_once m c s :
  session_established m s ->
  sessions_created (trace (run m c)) = [s] /\
  releases s (trace (run m c)) = 1%nat /\
  last (trace (run m c)) = Some (EvEndSession s).
Proof.
  intros Hs.
  destruct c; cbn [run];
    unfold GetALL, GetByField, Create, Update, Delete, MatchAndLookup;
    rewrite (createSession_established _ _ Hs);
    unfold WithSession, Collection_Find, Collection_Aggregate, Collection_FindOne,
      Collection_InsertOne, Collection_UpdateOne, Collection_DeleteOne,
      SingleResult_Decode, Cursor_All, after_WithSession, write_result.
  - destruct (_ && _).
    + go_simpl. rewrite Nat.eqb_refl. auto.
    + destruct (strconv.ParseInt pageSize) as [limit perr].
      destruct (primitive.ObjectIDFromHex lastID) as [id ierr].
      destruct (String.eqb lastID ""), perr, ierr; go_simpl;
        case_answer; go_simpl; try case_answer; go_simpl;
        rewrite Nat.eqb_refl; auto.
  - destruct (primitive.ObjectIDFromHex value) as [id ierr].
    destruct (String.eqb field "_id"), ierr; go_simpl;
      case_answer; go_simpl; try case_answer; go_simpl;
      rewrite Nat.eqb_refl; auto.
  - go_simpl. case_answer; go_simpl; rewrite Nat.eqb_refl; auto.
  - destruct ID; go_simpl; try case_answer; go_simpl; rewrite Nat.eqb_refl; auto.
  - destruct ID; go_simpl; try case_answer; go_simpl; rewrite Nat.eqb_refl; auto.
  - destruct (primitive.ObjectIDFromHex valueForMatch) as [id ierr].
    destruct (String.eqb fieldForMatch "_id"), ierr; go_simpl;
      case_answer; go_simpl; try case_answer; go_simpl;
      rewrite Nat.eqb_refl; auto.
Qed.

(** ** [GetByField] *)




(** C3, where the code departs from the claim. The closure tests
    [err == nil] after [SR.Decode] where the other operations test
    [err != nil]: a decode error is dropped. With a driver that matches a
    document and cannot decode it, GetByField returns the untouched target
    and a nil error. *)
Theorem GetByField_swallows_decode_error :
  mongo.Decode (Client decode_fails) 3%nat User = (Zero, Some (DriverError 4)) /\
  GetByField decode_fails "db" "users" "name" "bob" User =
    (Returned (RNew User Zero, None),
     [EvStartSession (inr 1%nat); EvStartTransaction 1%nat None;
      EvFindOne "db" "users" {[ "name" := VString "bob" ]};
      EvDecode 3%nat User; EvEndSession 1%nat]).
Proof. vm_compute. auto. Qed.

(** The same on every driver: whenever a document is matched, GetByField
    succeeds, whatever [SR.Decode] answered. *)
Lemma GetByField_decode_error_dropped m db coll field value ty s d target err :
  session_established m s ->
  (forall filter, mongo.FindOne (Client m) db coll filter = mongo.SingleResultDoc d) ->
  mongo.Decode (Client m) d ty = (target, err) ->
  outcome (GetByField m db coll field value ty) = Returned (RNew ty target, None).
Proof.
  intros Hs Hone Hdec.
  unfold GetByField. rewrite (createSession_established _ _ Hs).
  unfold WithSession, Collection_FindOne, SingleResult_Decode, after_WithSession.
  destruct (primitive.ObjectIDFromHex value) as [id ierr].
  destruct (String.eqb field "_id"), ierr; go_simpl;
    rewrite Hone; go_simpl; rewrite Hdec; destruct err; reflexivity.
Qed.

(** ** [Update] and [Delete] *)

(** C8. Once the session is established, Update and Delete called with an
    ID that is not a [primitive.ObjectID] hand back the error of the failed
    type assertion and make no write to the store. *)
Theorem Update_Delete_type_mismatch m db coll ID dataModel s :
  session_established m s ->
  is_ObjectID ID = false ->
  (outcome (Update m db coll ID dataModel) = Returned (RNil, Some TypeMismatch) /\
   mutations (trace (Update m db coll ID dataModel)) = []) /\
  (outcome (Delete m db coll ID) = Returned (RNil, Some TypeMismatch) /\
   mutations (trace (Delete m db coll ID)) = []).
Proof.
  intros Hs HID.
  unfold Update, Delete. rewrite (createSession_established _ _ Hs).
  destruct ID; try discriminate HID; repeat split.
Qed.

Lemma Update_Delete_type_mismatch_witness :
  session_established healthy 1%nat /\
  is_ObjectID (VString "5f0c1a2b3c4d5e6f70819203") = false /\
  (outcome (Update healthy "db" "users" (VString "5f0c1a2b3c4d5e6f70819203") (VStruct 1))
     = Returned (RNil, Some TypeMismatch) /\
   mutations (trace (Update healthy "db" "users" (VString "5f0c1a2b3c4d5e6f70819203")
                       (VStruct 1))) = []) /\
  (outcome (Delete healthy "db" "users" (VString "5f0c1a2b3c4d5e6f70819203"))
     = Returned (RNil, Some TypeMismatch) /\
   mutations (trace (Delete healthy "db" "users" (VString "5f0c1a2b3c4d5e6f70819203"))) = []).
Proof.
  split; [split; reflexivity|]. split; [reflexivity|].
  apply (Update_Delete_type_mismatch healthy "db" "users"
           (VString "5f0c1a2b3c4d5e6f70819203") (VStruct 1) 1%nat);
    [split; reflexivity | reflexivity].
Defined.

(* the write is withheld whether or not the session could be established *)
Lemma Update_Delete_no_write_without_ObjectID m db coll ID dataModel :
  is_ObjectID ID = false ->
  mutations (trace (Update m db coll ID dataModel)) = [] /\
  mutations (trace (Delete m db coll ID)) = [].
Proof.
  intros HID.
  unfold Update, Delete, createSession, Client_StartSession, Session_StartTransaction.
  destruct (mongo.StartSession (Client m)) as [e|s]; [split; reflexivity|].
  go_simpl. destruct (mongo.StartTransaction (Client m) s); [split; reflexivity|].
  destruct ID; try discriminate HID; split; reflexivity.
Qed.

(* with a decoded identifier the write goes out, on the filter {_id: id} *)
Lemma Update_Delete_with_ObjectID m db coll id dataModel s :
  session_established m s ->
  mutations (trace (Update m db coll (VObjectID id) dataModel)) =
    [EvUpdateOne db coll {[ "_id" := VObjectID id ]} {[ "$set" := dataModel ]}] /\
  mutations (trace (Delete m db coll (VObjectID id))) =
    [EvDeleteOne db coll {[ "_id" := VObjectID id ]}].
Proof.
  intros Hs.
  unfold Update, Delete. rewrite (createSession_established _ _ Hs).
  unfold WithSession, Collection_UpdateOne, Collection_DeleteOne, after_WithSession,
    write_result.
  split; go_simpl; case_answer; reflexivity.
Qed.

(** ** [MatchAndLookup] *)

(** C9. Once the session is established, MatchAndLookup runs exactly one
    query, an Aggregate on the collection to match, and its pipeline has
    exactly two stages: a [$match] on [fieldForMatch] equal to
    [valueForMatch] (the identifier decoded from it when the field is
    "_id"), then a [$lookup] from [collectionForLookup] with
    [fieldForLookup] as local field, [foreignField] as foreign field, and
    the name of the lookup collection as the output field. *)
Theorem MatchAndLookup_pipeline m db collectionForMatch fieldForMatch valueForMatch
    collectionForLookup fieldForLookup foreignField ty s :
  session_established m s ->
  queries (trace (MatchAndLookup m db collectionForMatch fieldForMatch valueForMatch
                    collectionForLookup fieldForLookup foreignField ty)) =
    [EvAggregate db collectionForMatch
       [ {[ "$match" := VM {[ fieldForMatch :=
              if String.eqb fieldForMatch "_id"
              then VObjectID (fst (primitive.ObjectIDFromHex valueForMatch))
              else VString valueForMatch ]} ]};
         {[ "$lookup" := VM {[ "from" := VString collectionForLookup;
                               "localField" := VString fieldForLookup;
                               "foreignField" := VString foreignField;
                               "as" := VString collectionForLookup ]} ]} ]].
Proof.
  intros Hs. unfold MatchAndLookup. rewrite (createSession_established _ _ Hs).
  unfold WithSession, Collection_Aggregate, Cursor_All, after_WithSession.
  destruct (primitive.ObjectIDFromHex valueForMatch) as [id ierr].
  destruct (String.eqb fieldForMatch "_id"), ierr; go_simpl;
    case_answer; go_simpl; try reflexivity;
    case_answer; reflexivity.
Qed.

Lemma MatchAndLookup_pipeline_witness :
  session_established healthy 1%nat /\
  queries (trace (MatchAndLookup healthy "db" "users" "_id" "5f0c1a2b3c4d5e6f70819203"
                    "orders" "uid" "user" User)) =
    [EvAggregate "db" "users"
       [ {[ "$match" := VM {[ "_id" :=
              VObjectID [95; 12; 26; 43; 60; 77; 94; 111; 112; 129; 146; 3] ]} ]};
         {[ "$lookup" := VM {[ "from" := VString "orders";
                               "localField" := VString "uid";
                               "foreignField" := VString "user";
                               "as" := VString "orders" ]} ]} ]].
Proof.
  split; [split; reflexivity|].
  apply (MatchAndLookup_pipeline healthy "db" "users" "_id" "5f0c1a2b3c4d5e6f70819203"
           "orders" "uid" "user" User 1%nat).
  split; reflexivity.
Defined.

(** ** The cursor of a failed query *)

(** C10, where the code departs from the claim. [defer cur.Close(ctx)] is
    registered before [err] is tested. When Find or Aggregate answers an
    error the cursor is nil, the closure returns the error, and the
    deferred Close then runs on the nil cursor: the operation panics and
    the driver's error never reaches the caller. *)
Theorem failed_query_closes_nil_cursor :
  mongo.Find (Client query_fails) "db" "users" ∅
    {| options.Limit := Some 10; options.Sort := Some [("_id", VInt 1)] |}
    = inl (DriverError 3) /\
  GetALL query_fails "db" "users" "" "10" User =
    (Panicked PanicNilPointer,
     [EvStartSession (inr 1%nat); EvStartTransaction 1%nat None;
      EvFind "db" "users" ∅
        {| options.Limit := Some 10; options.Sort := Some [("_id", VInt 1)] |};
      EvEndSession 1%nat]) /\
  outcome (MatchAndLookup query_fails "db" "users" "name" "bob" "orders" "uid" "user" User)
    = Panicked PanicNilPointer.
Proof. vm_compute. auto. Qed.

(** The same on every driver: a failed Find or Aggregate ends the
    operation in the panic of the nil cursor. *)
Lemma failed_query_panics m s :
  session_established m s ->
  (forall db coll lastID pageSize ty e,
     (db, coll, lastID, pageSize) <> ("", "", "", "") ->
     (forall filter opts, mongo.Find (Client m) db coll filter opts = inl e) ->
     outcome (GetALL m db coll lastID pageSize ty) = Panicked PanicNilPointer) /\
  (forall db coll field value lookup localField foreignField ty e,
     (forall pipeline, mongo.Aggregate (Client m) db coll pipeline = inl e) ->
     outcome (MatchAndLookup m db coll field value lookup localField foreignField ty)
       = Panicked PanicNilPointer).
Proof.
  intros Hs. split.
  - intros db coll lastID pageSize ty e Hne Hfind. unfold GetALL.
    rewrite (createSession_established _ _ Hs), (not_all_empty _ _ _ _ Hne).
    unfold WithSession, Collection_Find, Cursor_All, after_WithSession.
    destruct (strconv.ParseInt pageSize) as [limit perr].
    destruct (primitive.ObjectIDFromHex lastID) as [id ierr].
    destruct (String.eqb lastID ""), perr, ierr; go_simpl; rewrite Hfind; reflexivity.
  - intros db coll field value lookup localField foreignField ty e Hagg.
    unfold MatchAndLookup. rewrite (createSession_established _ _ Hs).
    unfold WithSession, Collection_Aggregate, Cursor_All, after_WithSession.
    destruct (primitive.ObjectIDFromHex value) as [id ierr].
    destruct (String.eqb field "_id"), ierr; go_simpl; rewrite Hagg; reflexivity.
Qed.

(** * Further properties of the package *)

(** ** Proof steps for whole operations *)

(* the next answer or test that decides how an operation goes on *)
Ltac split_path :=
  match goal with
  | |- context [mongo.StartSession ?c] => destruct (mongo.StartSession c) eqn:?
  | |- context [mongo.StartTransaction ?c ?s] => destruct (mongo.StartTransaction c s) eqn:?
  | |- context [String.eqb ?a ?b] => destruct (String.eqb a b) eqn:?
  | |- context [primitive.ObjectIDFromHex ?v] =>
      destruct (primitive.ObjectIDFromHex v) as [? [?|]] eqn:?
  | |- context [strconv.ParseInt ?v] => destruct (strconv.ParseInt v) as [? [?|]] eqn:?
  | |- context [match ?x with _ => _ end] => is_var x; destruct x
  | _ => case_answer
  end.

(* every path of an operation *)
Ltac walk :=
  repeat (go_simpl; rewrite ?Nat.eqb_refl; split_path);
  go_simpl; rewrite ?Nat.eqb_refl.

Ltac unfold_operations :=
  unfold GetALL, GetByField, Create, Update, Delete, MatchAndLookup,
    WithSession, Collection_Find, Collection_Aggregate, Collection_FindOne,
    Collection_InsertOne, Collection_UpdateOne, Collection_DeleteOne,
    SingleResult_Decode, SingleResult_Err, Cursor_All, Cursor_Close,
    after_WithSession, write_result, when_err.

Ltac unfold_createSession :=
  unfold createSession, Client_StartSession, Session_StartTransaction.


(** ** Every operation *)

(** X1. Once the session is established, the trace of every operation is
    the opening of the session, the start of its transaction, a body, and
    the end of the session: the session is ended exactly once, as the last
    thing the operation does, on every path (returned result, returned
    error, panic of the closure), and nothing in between touches it. *)
Theorem session_brackets_every_operation m c s :
  session_established m s ->
  exists body,
    trace (run m c) =
      [EvStartSession (inr s); EvStartTransaction s None] ++ body ++ [EvEndSession s] /\
    List.filter is_session_event body = [].
Proof.
  intros [Hs Ht].
  destruct c; cbn [run]; unfold_operations; unfold_createSession;
    rewrite Hs; go_simpl; rewrite Ht; walk;
    match goal with
    | |- exists body, _ :: _ :: ?t = _ /\ _ => exists (removelast t)
    end; split; reflexivity.
Qed.

Lemma session_brackets_every_operation_witness :
  session_established healthy 1%nat /\
  exists body,
    trace (run healthy (CallDelete "db" "users" (VObjectID primitive.NilObjectID))) =
      [EvStartSession (inr 1%nat); EvStartTransaction 1%nat None] ++ body
        ++ [EvEndSession 1%nat] /\
    List.filter is_session_event body = [].
Proof.
  split; [split; reflexivity|].
  apply (session_brackets_every_operation healthy
           (CallDelete "db" "users" (VObjectID primitive.NilObjectID)) 1%nat).
  split; reflexivity.
Defined.

(** X2. Whatever the driver answers, an operation sends at most one query
    (Find, FindOne, Aggregate, InsertOne, UpdateOne or DeleteOne) per
    call: nothing is retried and nothing is sent twice. *)
Theorem at_most_one_query m c : (length (queries (trace (run m c))) <= 1)%nat.
Proof.
  destruct c; cbn [run]; unfold_operations; unfold_createSession; walk; cbn; lia.
Qed.

(** X3. Whatever the driver answers, every query of a call is addressed to
    the database and the collection that the call names. *)
Theorem queries_go_to_named_collection m c :
  Forall (fun e => query_target e = Some (call_target c)) (queries (trace (run m c))).
Proof.
  destruct c; cbn [run]; unfold_operations; unfold_createSession; walk;
    repeat constructor.
Qed.

(** X4. Whatever the driver answers, GetALL, GetByField and MatchAndLookup
    write nothing: no InsertOne, UpdateOne or DeleteOne is among their
    calls. *)
Theorem reads_never_write m db coll a b ty lookup localField foreignField :
  mutations (trace (GetALL m db coll a b ty)) = [] /\
  mutations (trace (GetByField m db coll a b ty)) = [] /\
  mutations (trace (MatchAndLookup m db coll a b lookup localField foreignField ty)) = [].
Proof.
  repeat split; unfold_operations; unfold_createSession; walk; reflexivity.
Qed.

(** X5. An operation that returns an error returns no result with it: the
    result beside a non-nil error is always nil. *)
Theorem error_comes_with_nil_result m c r e :
  outcome (run m c) = Returned (r, Some e) -> r = RNil.
Proof.
  destruct c; cbn [run]; unfold_operations; unfold_createSession; walk;
    intros H; inversion H; reflexivity.
Qed.

Lemma error_comes_with_nil_result_witness :
  outcome (run no_document (CallGetByField "db" "users" "name" "bob" User))
    = Returned (RNil, Some (DriverError 5)) /\
  RNil = RNil.
Proof.
  split; [reflexivity|].
  apply (error_comes_with_nil_result no_document
           (CallGetByField "db" "users" "name" "bob" User) RNil (DriverError 5)).
  reflexivity.
Defined.



(** X19. Every error that an operation returns, apart from the error of
    GetALL's argument check, was printed first, under the name of the
    operation: "Error when try to use with session at <name> method: ". *)
Theorem returned_error_was_logged m c r e :
  outcome (run m c) = Returned (r, Some e) ->
  e = ValidationError \/
  In (EvPrintln ("Error when try to use with session at " +:+ call_name c +:+ " method: ") e)
     (trace (run m c)).
Proof.
  destruct c; cbn [run call_name]; unfold_operations; unfold_createSession; walk;
    intros H; inversion H; subst; auto 10.
Qed.

Lemma returned_error_was_logged_witness :
  outcome (run no_document (CallGetByField "db" "users" "name" "bob" User))
    = Returned (RNil, Some (DriverError 5)) /\
  (DriverError 5 = ValidationError \/
   In (EvPrintln "Error when try to use with session at GetByField method: " (DriverError 5))
      (trace (run no_document (CallGetByField "db" "users" "name" "bob" User)))).
Proof.
  split; [reflexivity|].
  apply (returned_error_was_logged no_document
           (CallGetByField "db" "users" "name" "bob" User) RNil (DriverError 5)).
  reflexivity.
Defined.

(* GetALL_first_page at a page size of 25 *)
Lemma GetALL_first_page_witness :
  session_established healthy 1%nat /\
  decimal "25" 0 = Some 25 /\
  queries (trace (GetALL healthy "db" "users" "" "25" User)) =
    [EvFind "db" "users" ∅
       {| options.Limit := Some 25; options.Sort := Some [("_id", VInt 1)] |}].
Proof.
  split; [split; reflexivity|]. split; [reflexivity|].
  apply (GetALL_first_page healthy "db" "users" "25" User 1%nat 25);
    [split; reflexivity | discriminate | reflexivity | reflexivity].
Defined.

(** ** [Create], [Update], [Delete] with a decoded identifier *)

(** X6. Once the session is established, Create sends exactly one query,
    an InsertOne of the document as it was given, and hands back what the
    driver answered: its acknowledgement with a nil error, or nil with its
    error. *)
Theorem Create_inserts_document m db coll dataModel s :
  session_established m s ->
  queries (trace (Create m db coll dataModel)) = [EvInsertOne db coll dataModel] /\
  outcome (Create m db coll dataModel) =
    Returned (match mongo.InsertOne (Client m) db coll dataModel with
              | inl err => (RNil, Some err)
              | inr ack => (RWrite ack, None)
              end).
Proof.
  intros [Hs Ht]. unfold_operations; unfold_createSession.
  rewrite Hs; go_simpl; rewrite Ht. walk; split; reflexivity.
Qed.

Lemma Create_inserts_document_witness :
  session_established healthy 1%nat /\
  queries (trace (Create healthy "db" "users" (VStruct 1))) =
    [EvInsertOne "db" "users" (VStruct 1)] /\
  outcome (Create healthy "db" "users" (VStruct 1)) = Returned (RWrite 1, None).
Proof.
  split; [split; reflexivity|].
  apply (Create_inserts_document healthy "db" "users" (VStruct 1) 1%nat).
  split; reflexivity.
Defined.

(** X7. Once the session is established, Update with a decoded identifier
    sends exactly one query, an UpdateOne with the filter [{_id: id}] and
    the update [{$set: dataModel}], and hands back what the driver
    answered: its acknowledgement with a nil error, or nil with its
    error. *)
Theorem Update_sets_fields_by_id m db coll id dataModel s :
  session_established m s ->
  queries (trace (Update m db coll (VObjectID id) dataModel)) =
    [EvUpdateOne db coll {[ "_id" := VObjectID id ]} {[ "$set" := dataModel ]}] /\
  outcome (Update m db coll (VObjectID id) dataModel) =
    Returned (match mongo.UpdateOne (Client m) db coll
                      {[ "_id" := VObjectID id ]} {[ "$set" := dataModel ]} with
              | inl err => (RNil, Some err)
              | inr ack => (RWrite ack, None)
              end).
Proof.
  intros [Hs Ht]. unfold_operations; unfold_createSession.
  rewrite Hs; go_simpl; rewrite Ht. walk; split; reflexivity.
Qed.

Lemma Update_sets_fields_by_id_witness :
  session_established healthy 1%nat /\
  queries (trace (Update healthy "db" "users" (VObjectID primitive.NilObjectID)
                    (VStruct 1))) =
    [EvUpdateOne "db" "users" {[ "_id" := VObjectID primitive.NilObjectID ]}
       {[ "$set" := VStruct 1 ]}] /\
  outcome (Update healthy "db" "users" (VObjectID primitive.NilObjectID) (VStruct 1))
    = Returned (RWrite 1, None).
Proof.
  split; [split; reflexivity|].
  apply (Update_sets_fields_by_id healthy "db" "users" primitive.NilObjectID
           (VStruct 1) 1%nat).
  split; reflexivity.
Defined.

(** X8. Once the session is established, Delete with a decoded identifier
    sends exactly one query, a DeleteOne with the filter [{_id: id}], and
    hands back what the driver answered: its acknowledgement with a nil
    error, whatever it counts, or nil with its error. *)
Theorem Delete_removes_by_id m db coll id s :
  session_established m s ->
  queries (trace (Delete m db coll (VObjectID id))) =
    [EvDeleteOne db coll {[ "_id" := VObjectID id ]}] /\
  outcome (Delete m db coll (VObjectID id)) =
    Returned (match mongo.DeleteOne (Client m) db coll {[ "_id" := VObjectID id ]} with
              | inl err => (RNil, Some err)
              | inr ack => (RWrite ack, None)
              end).
Proof.
  intros [Hs Ht]. unfold_operations; unfold_createSession.
  rewrite Hs; go_simpl; rewrite Ht. walk; split; reflexivity.
Qed.

Lemma Delete_removes_by_id_witness :
  session_established healthy 1%nat /\
  queries (trace (Delete healthy "db" "users" (VObjectID primitive.NilObjectID))) =
    [EvDeleteOne "db" "users" {[ "_id" := VObjectID primitive.NilObjectID ]}] /\
  outcome (Delete healthy "db" "users" (VObjectID primitive.NilObjectID))
    = Returned (RWrite 1, None).
Proof.
  split; [split; reflexivity|].
  apply (Delete_removes_by_id healthy "db" "users" primitive.NilObjectID 1%nat).
  split; reflexivity.
Defined.

(** ** [GetByField]: the filter, and what becomes of the answer *)

(** X9. Once the session is established, GetByField sends exactly one
    query, a FindOne whose filter has the one key [field]: its value is the
    string [value] as it was given when the field is not "_id", and the
    identifier decoded from [value] when it is. *)
Theorem GetByField_query m db coll field value ty s :
  session_established m s ->
  queries (trace (GetByField m db coll field value ty)) =
    [EvFindOne db coll (field_filter field value)].
Proof.
  intros [Hs Ht]. unfold field_filter. unfold_operations; unfold_createSession.
  rewrite Hs; go_simpl; rewrite Ht. walk; reflexivity.
Qed.

Lemma GetByField_query_witness :
  session_established healthy 1%nat /\
  queries (trace (GetByField healthy "db" "users" "name" "bob" User)) =
    [EvFindOne "db" "users" {[ "name" := VString "bob" ]}].
Proof.
  split; [split; reflexivity|].
  apply (GetByField_query healthy "db" "users" "name" "bob" User 1%nat).
  split; reflexivity.
Defined.

(** X10. Once the session is established, when the driver answers the
    FindOne with an error (no document matches, or the query failed),
    GetByField hands back nil and that error, and decodes nothing. *)
Theorem GetByField_no_document m db coll field value ty s e :
  session_established m s ->
  mongo.FindOne (Client m) db coll (field_filter field value) = mongo.SingleResultErr e ->
  outcome (GetByField m db coll field value ty) = Returned (RNil, Some e) /\
  List.filter is_decode (trace (GetByField m db coll field value ty)) = [].
Proof.
  intros [Hs Ht]. unfold field_filter. unfold_operations; unfold_createSession.
  rewrite Hs; go_simpl; rewrite Ht. intros Hone.
  destruct (String.eqb field "_id");
    [destruct (primitive.ObjectIDFromHex value) as [id [e'|]]|];
    go_simpl; rewrite Hone; split; reflexivity.
Qed.

Lemma GetByField_no_document_witness :
  session_established no_document 1%nat /\
  mongo.FindOne (Client no_document) "db" "users" (field_filter "name" "bob")
    = mongo.SingleResultErr (DriverError 5) /\
  outcome (GetByField no_document "db" "users" "name" "bob" User)
    = Returned (RNil, Some (DriverError 5)) /\
  List.filter is_decode (trace (GetByField no_document "db" "users" "name" "bob" User)) = [].
Proof.
  split; [split; reflexivity|]. split; [reflexivity|].
  apply (GetByField_no_document no_document "db" "users" "name" "bob" User 1%nat
           (DriverError 5)); [split; reflexivity | reflexivity].
Defined.



(** ** [GetALL] and [MatchAndLookup]: the cursor *)





(** ** Startup: [getConnectionURI] and [NewMongoDB] *)

Lemma append_assoc (a b c : string) : (a +:+ b) +:+ c = a +:+ b +:+ c.
Proof.
  induction a as [|x a IH]; [reflexivity|].
  change (String x ((a +:+ b) +:+ c) = String x (a +:+ b +:+ c)). by rewrite IH.
Qed.

Lemma append_empty_r (a : string) : a +:+ "" = a.
Proof.
  induction a as [|x a IH]; [reflexivity|].
  change (String x (a +:+ "") = String x a). by rewrite IH.
Qed.

Lemma occurs_in_refl s : occurs_in s s.
Proof. exists "", "". change (s = s +:+ ""). by rewrite append_empty_r. Qed.

Lemma occurs_in_append_l s t u : occurs_in s t -> occurs_in s (t +:+ u).
Proof.
  intros (before & after & ->). exists before, (after +:+ u).
  by rewrite !append_assoc.
Qed.

Lemma occurs_in_append_r s t u : occurs_in s u -> occurs_in s (t +:+ u).
Proof.
  intros (before & after & ->). exists (t +:+ before), after.
  by rewrite !append_assoc.
Qed.

(* every element of a joined list occurs in the result *)
Lemma Join_occurs elems sep e : In e elems -> occurs_in e (strings.Join elems sep).
Proof.
  induction elems as [|a [|b rest] IH]; intros Hin.
  - destruct Hin.
  - destruct Hin as [->|[]]. apply occurs_in_refl.
  - destruct Hin as [->|Hin].
    + change (strings.Join (e :: b :: rest) sep)
        with (e +:+ sep +:+ strings.Join (b :: rest) sep).
      apply occurs_in_append_l, occurs_in_refl.
    + change (strings.Join (a :: b :: rest) sep)
        with (a +:+ sep +:+ strings.Join (b :: rest) sep).
      apply occurs_in_append_r, occurs_in_append_r, IH, Hin.
Qed.

(** X14. The URI names every configured host and every configured option,
    with or without credentials. *)
Theorem getConnectionURI_names_hosts_and_options config x :
  In x (Config.Hosts config ++ Config.Options config) ->
  occurs_in x (getConnectionURI config).
Proof.
  intros Hin. apply in_app_or in Hin. unfold getConnectionURI. cbv zeta.
  destruct (_ && _).
  - destruct Hin as [Hin|Hin].
    + apply occurs_in_append_l, Join_occurs, Hin.
    + apply occurs_in_append_r, occurs_in_append_r, Join_occurs, Hin.
  - do 5 apply occurs_in_append_r.
    destruct Hin as [Hin|Hin].
    + apply occurs_in_append_l, Join_occurs, Hin.
    + apply occurs_in_append_r, occurs_in_append_r, Join_occurs, Hin.
Qed.

Lemma getConnectionURI_names_hosts_and_options_witness :
  In "b.example.com" (Config.Hosts cluster ++ Config.Options cluster) /\
  occurs_in "b.example.com" (getConnectionURI cluster).
Proof.
  assert (H : In "b.example.com" (Config.Hosts cluster ++ Config.Options cluster)).
  { right. left. reflexivity. }
  split; [exact H|].
  exact (getConnectionURI_names_hosts_and_options cluster "b.example.com" H).
Defined.

(** X15. As soon as the user or the password is not empty, the URI is the
    SRV form and starts with the scheme and both credentials as they were
    given, an empty one included: "mongodb+srv://user:password@". *)
Theorem getConnectionURI_with_credentials config :
  Config.User config <> "" \/ Config.Password config <> "" ->
  starts_with
    ("mongodb+srv://" +:+ Config.User config +:+ ":" +:+ Config.Password config +:+ "@")
    (getConnectionURI config).
Proof.
  intros Hcred. unfold getConnectionURI. cbv zeta.
  destruct (String.eqb_spec (Config.User config) "") as [Hu|Hu];
    destruct (String.eqb_spec (Config.Password config) "") as [Hp|Hp];
    cbn [andb]; try (destruct Hcred; congruence);
    eexists; rewrite !append_assoc; reflexivity.
Qed.

Lemma getConnectionURI_with_credentials_witness :
  (Config.User cluster <> "" \/ Config.Password cluster <> "") /\
  starts_with "mongodb+srv://app:secret@" (getConnectionURI cluster).
Proof.
  assert (H : Config.User cluster <> "" \/ Config.Password cluster <> "").
  { left. discriminate. }
  split; [exact H|].
  exact (getConnectionURI_with_credentials cluster H).
Defined.

(** X16. When NewMongoDB returns, the client it hands back is the one the
    driver connected for the URI of the configuration, that client has
    answered the ping, and the configuration is stored unchanged. *)
Theorem NewMongoDB_returns_checked_client net config mc cfg :
  fst (NewMongoDB net config) = Returned (mc, cfg) ->
  Connect net (getConnectionURI config) = inr (Client mc) /\
  Ping net (Client mc) = None /\
  cfg = config.
Proof.
  unfold NewMongoDB. cbv zeta.
  destruct (Connect net (getConnectionURI config)) as [e|client] eqn:Hc; [discriminate|].
  destruct (Ping net client) as [e|] eqn:Hp; [discriminate|].
  intros [= <- <-]. auto.
Qed.

Lemma NewMongoDB_returns_checked_client_witness :
  fst (NewMongoDB reachable cluster) = Returned (healthy, cluster) /\
  Connect reachable (getConnectionURI cluster) = inr (Client healthy) /\
  Ping reachable (Client healthy) = None /\
  cluster = cluster.
Proof.
  split; [reflexivity|].
  apply (NewMongoDB_returns_checked_client reachable cluster healthy cluster).
  reflexivity.
Defined.

(** X17. When the driver cannot connect, or the connected client does not
    answer the ping, NewMongoDB does not return: it logs the driver's error
    and, as the last thing it does, panics with it. *)
Theorem NewMongoDB_panics_when_unreachable net config e :
  startup_fails net config e ->
  fst (NewMongoDB net config) = Panicked (PanicError e) /\
  exists text, last (snd (NewMongoDB net config)) = Some (EvLogError text e).
Proof.
  unfold NewMongoDB. cbv zeta.
  intros [Hc|(client & Hc & Hp)]; rewrite Hc.
  - split; [reflexivity|]. eexists. reflexivity.
  - rewrite Hp. split; [reflexivity|]. eexists. reflexivity.
Qed.

Lemma NewMongoDB_panics_when_unreachable_witness :
  startup_fails unreachable cluster (DriverError 6) /\
  fst (NewMongoDB unreachable cluster) = Panicked (PanicError (DriverError 6)) /\
  exists text, last (snd (NewMongoDB unreachable cluster))
               = Some (EvLogError text (DriverError 6)).
Proof.
  assert (H : startup_fails unreachable cluster (DriverError 6)).
  { left. reflexivity. }
  split; [exact H|].
  exact (NewMongoDB_panics_when_unreachable unreachable cluster (DriverError 6) H).
Defined.
